(** * The execution subagent tool

    A shallow embedding of [ExecutionSubagentTool] (the tool that hands a
    command and an objective to a nested tool-calling loop) and of the
    prompt element [ExecutionSubagentPrompt] that renders the delegate's
    user message, followed by the properties the specification states
    about them. *)

From Stdlib Require Import String Ascii List.
From stdpp Require Import base option list strings gmap.

Local Open Scope string_scope.
Local Open Scope list_scope.

(** ** JavaScript values and operators used by the tool *)

Module Js.

(** An [async] function either resolves with a value or rejects with
    the error that was thrown in its body. *)
Inductive Error := TypeError.

Inductive Result (A : Type) :=
| Returned (a : A)
| Thrown (e : Error).
Arguments Returned {A} a.
Arguments Thrown {A} e.

Definition bind {A B} (r : Result A) (k : A -> Result B) : Result B :=
  match r with
  | Returned a => k a
  | Thrown e => Thrown e
  end.

(** Reading a property of [undefined] throws a [TypeError]; the
    non-null assertion [x!] of TypeScript has no run-time effect, so
    [x!.p] is exactly this. *)
Definition deref {A} (x : option A) : Result A :=
  match x with
  | Some a => Returned a
  | None => Thrown TypeError
  end.

(** [a ?? b]: the left operand unless it is nullish. *)
Definition nullish {A} (a b : option A) : option A :=
  match a with
  | Some x => Some x
  | None => b
  end.

(** [a ?? lit] where the right operand is never nullish. *)
Definition nullish_lit {A} (a : option A) (lit : A) : A :=
  match a with
  | Some x => x
  | None => lit
  end.

(** [a?.p]: [undefined] when [a] is nullish, else the property. *)
Definition chain {A B} (a : option A) (p : A -> option B) : option B :=
  match a with
  | Some x => p x
  | None => None
  end.

(** [a && b] on object-or-undefined operands: an object is truthy. *)
Definition and_then {A B} (a : option A) (b : A -> B) : option B :=
  match a with
  | Some x => Some (b x)
  | None => None
  end.

(** [xs.at(-1)] *)
Definition at_last {A} (xs : list A) : option A := last xs.

(** [xs[i]] *)
Definition index {A} (xs : list A) (i : nat) : option A := xs !! i.

(** A substitution [${v}] inside a template literal: a string is
    copied as it is, [undefined] prints as its name. *)
Definition subst (v : option string) : string :=
  match v with
  | Some s => s
  | None => "undefined"
  end.

(** [xs.join(sep)] on an array of strings. *)
Fixpoint join (sep : string) (xs : list string) : string :=
  match xs with
  | [] => ""
  | x :: rest =>
      match rest with
      | [] => x
      | _ :: _ => x +:+ sep +:+ join sep rest
      end
  end.

Definition nl : string := String "010"%char EmptyString.
Definition tab : string := String "009"%char EmptyString.
Definition dquote : string := String "034"%char EmptyString.
Definition squote : string := "'".

End Js.

Notation "'let!' x ':=' r 'in' k" := (Js.bind r (fun x => k))
  (at level 10, x name, r at level 100, k at level 200).

(** ** Tool parameters and the instruction text *)

Module IExecutionSubagentParams.
Record t := mk {
  (** Natural language query describing what to execute *)
  command : string;
  (** Objective describing what is to be determined from the command output *)
  objective : string;
  (** User-visible description shown while invoking *)
  description : string;
}.
End IExecutionSubagentParams.

(** The lines of the instruction after the two that depend on the
    request, as the array literal of [invoke] lists them. *)
Definition instructionContract : list string :=
  let q := Js.dquote in
  [ "";
    "You are a specialized execution subagent. Your task is to execute the above command and extract relevant excerpts of its output according to the purpose described in the objective.";
    "You have access to just one tool:";
    "- run_in_terminal: Executes a command in the terminal and returns the output.";
    "";
    "After completing your search, return ONLY a valid JSON array of the most relevant execution output excerpts in this exact format:";
    "[";
    "  {";
    "    " +:+ q +:+ "output" +:+ q +:+ ": " +:+ q +:+ "Excerpt of the command output here" +:+ q;
    " " +:+ Js.tab +:+ " " +:+ q +:+ "return_code" +:+ q +:+ ": 0";
    "  }";
    "]";
    "";
    "Include only the most relevant excerpts that would help satisfy the objective.";
    "The " +:+ q +:+ "return_code" +:+ q +:+ " field should capture the command" +:+ Js.squote +:+ "s return code.";
    "The `output` can be an empty string if there is no relevant output.";
    "Do not include any explanation or additional text, only the JSON array.";
    "" ].

Definition executionInstruction (input : IExecutionSubagentParams.t) : string :=
  Js.join Js.nl
    (("Command: " +:+ IExecutionSubagentParams.command input)
     :: ("Objective: " +:+ IExecutionSubagentParams.objective input)
     :: instructionContract).

(** ** Editor types the tool reads and builds

    These classes and interfaces are declared by the editor API and by
    sibling modules; each is a record of the fields this tool and its
    prompt element touch. *)

(** The classes of response parts a stream carries. The filter of
    [invoke] names three of them; every other class is [OtherPart]. *)
Inductive PartClass :=
| ChatPrepareToolInvocationPart
| ChatResponseTextEditPart
| ChatResponseNotebookEditPart
| OtherPart (className : string).

Module ExtendedChatResponsePart.
Record t := mk {
  constructor : PartClass;
  payload : string;
}.
End ExtendedChatResponsePart.

(** [part instanceof C] *)
Definition instanceof (part : ExtendedChatResponsePart.t) (C : PartClass) : bool :=
  match ExtendedChatResponsePart.constructor part, C with
  | ChatPrepareToolInvocationPart, ChatPrepareToolInvocationPart => true
  | ChatResponseTextEditPart, ChatResponseTextEditPart => true
  | ChatResponseNotebookEditPart, ChatResponseNotebookEditPart => true
  | OtherPart a, OtherPart b => if decide (a = b) then true else false
  | _, _ => false
  end.

#[global] Instance PartClass_eq_dec : EqDecision PartClass.
Proof. solve_decision. Defined.

(** The kinds of event the specification lets through the stream
    filter: tool-invocation preparation, text edit, structured-document
    (notebook) edit. *)
Definition keptKinds : list PartClass :=
  [ChatPrepareToolInvocationPart; ChatResponseTextEditPart; ChatResponseNotebookEditPart].

Definition isKeptKind (part : ExtendedChatResponsePart.t) : bool :=
  existsb (fun kind => bool_decide (ExtendedChatResponsePart.constructor part = kind))
    keptKinds.

(** What the outer chat view has been handed so far, oldest first. *)
Definition Ui := list ExtendedChatResponsePart.t.

Module ChatResponseStream.
Record t := mk {
  push : ExtendedChatResponsePart.t -> Ui -> Ui;
}.

(** Pushing a sequence of parts, one after the other. *)
Definition pushAll (stream : t) (parts : list ExtendedChatResponsePart.t) (ui : Ui) : Ui :=
  fold_left (fun u part => push stream part u) parts ui.

(** The stream of the chat view itself: every part is shown. *)
Definition view : t := {| push := fun part ui => ui ++ [part] |}.
End ChatResponseStream.

Module LanguageModelTextPart.
Record t := mk { value : string }.
End LanguageModelTextPart.

Module ExtendedLanguageModelToolResult.
Record t := mk { content : list LanguageModelTextPart.t }.
End ExtendedLanguageModelToolResult.

Definition ChatLocation := nat.

Module ChatRequest.
Record t := mk { location : ChatLocation }.
End ChatRequest.

Module CancellationToken.
Record t := mk { isCancellationRequested : bool }.
End CancellationToken.

Module TurnMessage.
Record t := mk { type : string; message : string }.
End TurnMessage.

Module Turn.
Record t := mk { id : string; request : TurnMessage.t }.
End Turn.

Module Conversation.
Record t := mk { sessionId : string; turns : list Turn.t }.
End Conversation.

(** Values of the enumerations [ChatFetchResponseType] and [ToolName]
    are strings. *)
Definition ChatFetchResponseType := string.
Definition ToolName := string.

Module ChatResponse.
Record t := mk {
  type : ChatFetchResponseType;
  reason : option string;
}.
End ChatResponse.

Module IToolCallRound.
Record t := mk { response : option string }.
End IToolCallRound.

Module IToolCallLoopResult.
Record t := mk {
  response : ChatResponse.t;
  toolCallRounds : list IToolCallRound.t;
  round : IToolCallRound.t;
}.
End IToolCallLoopResult.

Module IBuildPromptContext.
Record t := mk {
  request : option ChatRequest.t;
  stream : option ChatResponseStream.t;
  conversation : option Conversation.t;
  toolCallRounds : option (list IToolCallRound.t);
  toolCallResults : option (gmap string ExtendedLanguageModelToolResult.t);
}.
End IBuildPromptContext.

(** ** The prompt element *)

Inductive CopilotToolMode := PartialContext | FullContext.

Module ChatToolCallsProps.
Record t := mk {
  priority : nat;
  flexGrow : nat;
  promptContext : IBuildPromptContext.t;
  toolCallRounds : option (list IToolCallRound.t);
  toolCallResults : option (gmap string ExtendedLanguageModelToolResult.t);
  toolCallMode : CopilotToolMode;
}.
End ChatToolCallsProps.

(** The children of the fragment [render] returns. *)
Inductive PromptPiece :=
| UserMessage (children : option string)
| ChatToolCalls (props : ChatToolCallsProps.t).

Module GenericBasePromptElementProps.
Record t := mk { promptContext : IBuildPromptContext.t }.
End GenericBasePromptElementProps.

Module ExecutionSubagentPrompt.
Definition render (props : GenericBasePromptElementProps.t) : list PromptPiece :=
  let ctx := GenericBasePromptElementProps.promptContext props in
  let conversation := IBuildPromptContext.conversation ctx in
  let toolCallRounds := IBuildPromptContext.toolCallRounds ctx in
  let toolCallResults := IBuildPromptContext.toolCallResults ctx in
  (* Render the execution instruction from the conversation *)
  let executionInstruction :=
    Js.chain
      (Js.chain conversation (fun c => Js.index (Conversation.turns c) 0))
      (fun turn => Some (TurnMessage.message (Turn.request turn))) in
  [ UserMessage executionInstruction;
    ChatToolCalls
      {| ChatToolCallsProps.priority := 899;
         ChatToolCallsProps.flexGrow := 2;
         ChatToolCallsProps.promptContext := ctx;
         ChatToolCallsProps.toolCallRounds := toolCallRounds;
         ChatToolCallsProps.toolCallResults := toolCallResults;
         ChatToolCallsProps.toolCallMode := FullContext |} ].
End ExecutionSubagentPrompt.

(** ** Collaborators whose source lies outside this module *)

Module ChatResponseStreamImpl.
(** Modelled from the spec: the body of [ChatResponseStreamImpl.filter],
    which lives in [util/common/chatResponseStreamImpl]. By 4.4 the
    result is "a projected sink forwarding only events" that the
    predicate accepts, "order-preserving, no buffering", by
    "synchronous forwarding": a push on the projected sink is a push
    on the outer sink when the callback accepts the part, and nothing
    otherwise. *)
Definition filter (stream : ChatResponseStream.t)
    (callback : ExtendedChatResponsePart.t -> bool) : ChatResponseStream.t :=
  {| ChatResponseStream.push := fun part ui =>
       if callback part then ChatResponseStream.push stream part ui else ui |}.
End ChatResponseStreamImpl.

Module ISubagentToolCallingLoopOptions.
Record t := mk {
  toolCallLimit : nat;
  conversation : Conversation.t;
  request : ChatRequest.t;
  location : ChatLocation;
  promptText : string;
  allowedTools : gset string;
  customPromptClass : GenericBasePromptElementProps.t -> list PromptPiece;
}.
End ISubagentToolCallingLoopOptions.

Module SubagentToolCallingLoop.
(** Modelled from the spec: the loop engine of [prompt/node/subagentLoop].
    Its contract (4.5) is [run(config, sink?, cancellation) ->
    LoopResult], "streaming progress through the filtered sink":
    a run is the sequence of parts the delegate reports and the result
    it ends with; the parts reach the outer view only through the sink
    the caller supplies, in the order they are reported. *)
Record t := mk {
  progress : CancellationToken.t -> list ExtendedChatResponsePart.t;
  outcome : CancellationToken.t -> IToolCallLoopResult.t;
}.

Definition run (loop : t) (stream : option ChatResponseStream.t)
    (token : CancellationToken.t) (ui : Ui) : IToolCallLoopResult.t * Ui :=
  (outcome loop token,
   match stream with
   | Some sink => ChatResponseStream.pushAll sink (progress loop token) ui
   | None => ui
   end).
End SubagentToolCallingLoop.

Module IInstantiationService.
(** [createInstance(SubagentToolCallingLoop, options)] *)
Record t := mk {
  createInstance : ISubagentToolCallingLoopOptions.t -> SubagentToolCallingLoop.t;
}.
End IInstantiationService.

Module LanguageModelToolInvocationOptions.
Record t := mk { input : IExecutionSubagentParams.t }.
End LanguageModelToolInvocationOptions.

Module PreparedToolInvocation.
Record t := mk { invocationMessage : string }.
End PreparedToolInvocation.

(** ** The tool *)

Module ExecutionSubagentTool.

Record t := mk {
  instantiationService : IInstantiationService.t;
  _inputContext : option IBuildPromptContext.t;
}.

(** The callback handed to [ChatResponseStreamImpl.filter]. *)
Definition keptPart (part : ExtendedChatResponsePart.t) : bool :=
  instanceof part ChatPrepareToolInvocationPart
  || instanceof part ChatResponseTextEditPart
  || instanceof part ChatResponseNotebookEditPart.

Definition prepareInvocation (options : LanguageModelToolInvocationOptions.t)
    (_token : CancellationToken.t) : PreparedToolInvocation.t :=
  {| PreparedToolInvocation.invocationMessage :=
       IExecutionSubagentParams.description
         (LanguageModelToolInvocationOptions.input options) |}.

Definition resolveInput (this : t) (input : IExecutionSubagentParams.t)
    (promptContext : IBuildPromptContext.t) (_mode : CopilotToolMode)
    : IExecutionSubagentParams.t * t :=
  let this' := {| instantiationService := instantiationService this;
                  _inputContext := Some promptContext |} in
  (input, this').

(** Sample values used to exercise the statements below. The JSON
    answer and the request are the concrete scenario of the
    specification. *)
Module Sample.
Definition input : IExecutionSubagentParams.t :=
  {| IExecutionSubagentParams.command := "ls -la";
     IExecutionSubagentParams.objective := "list files in current directory";
     IExecutionSubagentParams.description := "Listing files" |}.

Definition relabelled : IExecutionSubagentParams.t :=
  {| IExecutionSubagentParams.command := "ls -la";
     IExecutionSubagentParams.objective := "list files in current directory";
     IExecutionSubagentParams.description := "Show the directory" |}.

Definition options : LanguageModelToolInvocationOptions.t :=
  {| LanguageModelToolInvocationOptions.input := input |}.

Definition token : CancellationToken.t :=
  {| CancellationToken.isCancellationRequested := false |}.

Definition answer : string :=
  let q := Js.dquote in
  "[{" +:+ q +:+ "output" +:+ q +:+ ":" +:+ q +:+ "file1\nfile2" +:+ q +:+ ","
    +:+ q +:+ "return_code" +:+ q +:+ ":0}]".

Definition markdown := ExtendedChatResponsePart.mk (OtherPart "ChatResponseMarkdownPart") "Running ls".
Definition progress := ExtendedChatResponsePart.mk (OtherPart "ChatResponseProgressPart") "Working".
Definition prepare := ExtendedChatResponsePart.mk ChatPrepareToolInvocationPart "run_in_terminal".
Definition textEdit := ExtendedChatResponsePart.mk ChatResponseTextEditPart "a.ts".
Definition notebookEdit := ExtendedChatResponsePart.mk ChatResponseNotebookEditPart "b.ipynb".

Definition reported : list ExtendedChatResponsePart.t :=
  [markdown; prepare; progress; textEdit; markdown; notebookEdit; prepare].

Definition succeeded : IToolCallLoopResult.t :=
  {| IToolCallLoopResult.response := ChatResponse.mk "success" None;
     IToolCallLoopResult.toolCallRounds :=
       [IToolCallRound.mk (Some "first"); IToolCallRound.mk (Some answer)];
     IToolCallLoopResult.round := IToolCallRound.mk (Some answer) |}.

Definition answeredDirectly : IToolCallLoopResult.t :=
  {| IToolCallLoopResult.response := ChatResponse.mk "success" None;
     IToolCallLoopResult.toolCallRounds := [];
     IToolCallLoopResult.round := IToolCallRound.mk (Some answer) |}.

Definition answeredNothing : IToolCallLoopResult.t :=
  {| IToolCallLoopResult.response := ChatResponse.mk "success" None;
     IToolCallLoopResult.toolCallRounds := [IToolCallRound.mk (Some "")];
     IToolCallLoopResult.round := IToolCallRound.mk (Some "") |}.

Definition rateLimited : IToolCallLoopResult.t :=
  {| IToolCallLoopResult.response := ChatResponse.mk "rateLimited" (Some "rate limited");
     IToolCallLoopResult.toolCallRounds := [];
     IToolCallLoopResult.round := IToolCallRound.mk None |}.

Definition service (loopResult : IToolCallLoopResult.t) : IInstantiationService.t :=
  {| IInstantiationService.createInstance := fun _ =>
       {| SubagentToolCallingLoop.progress := fun _ => reported;
          SubagentToolCallingLoop.outcome := fun _ => loopResult |} |}.

Definition streaming : IBuildPromptContext.t :=
  {| IBuildPromptContext.request := Some (ChatRequest.mk 1);
     IBuildPromptContext.stream := Some ChatResponseStream.view;
     IBuildPromptContext.conversation := None;
     IBuildPromptContext.toolCallRounds := None;
     IBuildPromptContext.toolCallResults := None |}.

Definition silent : IBuildPromptContext.t :=
  {| IBuildPromptContext.request := Some (ChatRequest.mk 1);
     IBuildPromptContext.stream := None;
     IBuildPromptContext.conversation := None;
     IBuildPromptContext.toolCallRounds := None;
     IBuildPromptContext.toolCallResults := None |}.

Definition tool (loopResult : IToolCallLoopResult.t) (ctx : IBuildPromptContext.t) : t :=
  {| instantiationService := service loopResult; _inputContext := Some ctx |}.
Definition lastRoundSilent : IToolCallLoopResult.t :=
  {| IToolCallLoopResult.response := ChatResponse.mk "success" None;
     IToolCallLoopResult.toolCallRounds :=
       [IToolCallRound.mk (Some "first"); IToolCallRound.mk None];
     IToolCallLoopResult.round := IToolCallRound.mk (Some answer) |}.

Definition requestless : IBuildPromptContext.t :=
  {| IBuildPromptContext.request := None;
     IBuildPromptContext.stream := Some ChatResponseStream.view;
     IBuildPromptContext.conversation := None;
     IBuildPromptContext.toolCallRounds := None;
     IBuildPromptContext.toolCallResults := None |}.

Definition unbound : t :=
  {| instantiationService := service succeeded; _inputContext := None |}.

Definition otherInput : IExecutionSubagentParams.t :=
  {| IExecutionSubagentParams.command := "git status";
     IExecutionSubagentParams.objective := "find modified files";
     IExecutionSubagentParams.description := "Checking status" |}.

Definition followUp : Turn.t :=
  Turn.mk "2" (TurnMessage.mk "user" "and now something else").

Definition rendering : IBuildPromptContext.t :=
  {| IBuildPromptContext.request := None;
     IBuildPromptContext.stream := None;
     IBuildPromptContext.conversation :=
       Some (Conversation.mk "s"
               [Turn.mk "1" (TurnMessage.mk "user" "run it"); followUp]);
     IBuildPromptContext.toolCallRounds := Some [IToolCallRound.mk (Some "first")];
     IBuildPromptContext.toolCallResults := None |}.
Definition sameLabel : IExecutionSubagentParams.t :=
  {| IExecutionSubagentParams.command := "pwd";
     IExecutionSubagentParams.objective := "name the current directory";
     IExecutionSubagentParams.description := "Listing files" |}.

Definition nested : IBuildPromptContext.t :=
  {| IBuildPromptContext.request := Some (ChatRequest.mk 1);
     IBuildPromptContext.stream :=
       Some (ChatResponseStreamImpl.filter ChatResponseStream.view keptPart);
     IBuildPromptContext.conversation := None;
     IBuildPromptContext.toolCallRounds := None;
     IBuildPromptContext.toolCallResults := None |}.
End Sample.

Section Invoke.

(** The members [ChatFetchResponseType.Success] and
    [ToolName.CoreRunInTerminal]; their enumerations are declared in
    [platform/chat/common/commonTypes] and [tools/common/toolNames]. *)
Variable Success : ChatFetchResponseType.
Variable CoreRunInTerminal : ToolName.

(** The options object literal passed to [createInstance]. Both
    [this._inputContext!.request!] and the [.location] read on it
    dereference without a check. *)
Definition loopOptions (this : t) (options : LanguageModelToolInvocationOptions.t)
    (executionInstruction : string) : Js.Result ISubagentToolCallingLoopOptions.t :=
  let input := LanguageModelToolInvocationOptions.input options in
  let! ctx := Js.deref (_inputContext this) in
  let! request := Js.deref (IBuildPromptContext.request ctx) in
  Js.Returned
    {| ISubagentToolCallingLoopOptions.toolCallLimit := 25;
       ISubagentToolCallingLoopOptions.conversation :=
         Conversation.mk ""
           [ Turn.mk "" {| TurnMessage.type := "user";
                           TurnMessage.message := executionInstruction |} ];
       ISubagentToolCallingLoopOptions.request := request;
       ISubagentToolCallingLoopOptions.location := ChatRequest.location request;
       ISubagentToolCallingLoopOptions.promptText := IExecutionSubagentParams.command input;
       ISubagentToolCallingLoopOptions.allowedTools := list_to_set [CoreRunInTerminal];
       ISubagentToolCallingLoopOptions.customPromptClass := ExecutionSubagentPrompt.render |}.

(** [this._inputContext?.stream && ChatResponseStreamImpl.filter(...)] *)
Definition filteredStream (this : t) : option ChatResponseStream.t :=
  Js.and_then
    (Js.chain (_inputContext this) IBuildPromptContext.stream)
    (fun stream => ChatResponseStreamImpl.filter stream keptPart).

(** The text computed from the loop result (the [if] after the run). *)
Definition subagentResponse (loopResult : IToolCallLoopResult.t) : string :=
  let response := IToolCallLoopResult.response loopResult in
  if decide (ChatResponse.type response = Success) then
    Js.nullish_lit
      (Js.nullish
         (Js.chain (Js.at_last (IToolCallLoopResult.toolCallRounds loopResult))
            IToolCallRound.response)
         (IToolCallRound.response (IToolCallLoopResult.round loopResult)))
      ""
  else
    "The search subagent request failed with this message:" +:+ Js.nl
      +:+ Js.subst (Some (ChatResponse.type response)) +:+ ": "
      +:+ Js.subst (ChatResponse.reason response).

Definition invoke (this : t) (options : LanguageModelToolInvocationOptions.t)
    (token : CancellationToken.t) (ui : Ui)
    : Js.Result ExtendedLanguageModelToolResult.t * Ui :=
  let executionInstruction :=
    executionInstruction (LanguageModelToolInvocationOptions.input options) in
  match loopOptions this options executionInstruction with
  | Js.Thrown e => (Js.Thrown e, ui)
  | Js.Returned config =>
      let loop :=
        IInstantiationService.createInstance (instantiationService this) config in
      let stream := filteredStream this in
      let (loopResult, ui') := SubagentToolCallingLoop.run loop stream token ui in
      let result :=
        ExtendedLanguageModelToolResult.mk
          [ LanguageModelTextPart.mk (subagentResponse loopResult) ] in
      (Js.Returned result, ui')
  end.

(** *** Vocabulary of the statements *)

(** The text line 78 selects before its last fallback: the response
    of the last round, else the response of [round]. *)
Definition selectedResponse (loopResult : IToolCallLoopResult.t) : option string :=
  Js.nullish
    (Js.chain (Js.at_last (IToolCallLoopResult.toolCallRounds loopResult))
       IToolCallRound.response)
    (IToolCallRound.response (IToolCallLoopResult.round loopResult)).

(** The message the specification fixes for a failed run. *)
Definition failureMessage (K R : string) : string :=
  "The search subagent request failed with this message:" +:+ Js.nl
    +:+ K +:+ ": " +:+ R.

(** The single text a tool result carries, when it has that shape. *)
Definition delegationResult (r : Js.Result ExtendedLanguageModelToolResult.t)
    : option string :=
  match r with
  | Js.Returned {| ExtendedLanguageModelToolResult.content := [part] |} =>
      Some (LanguageModelTextPart.value part)
  | _ => None
  end.

(** The loop result [invoke] awaits for a given configuration. *)
Definition awaited (this : t) (config : ISubagentToolCallingLoopOptions.t)
    (token : CancellationToken.t) : IToolCallLoopResult.t :=
  SubagentToolCallingLoop.outcome
    (IInstantiationService.createInstance (instantiationService this) config) token.

(** Whether a text contains a line break. *)
Fixpoint hasLineBreak (s : string) : bool :=
  match s with
  | EmptyString => false
  | String c rest => if Ascii.eqb c "010"%char then true else hasLineBreak rest
  end.

(** *** Unfolding lemmas *)

Lemma loopOptions_bound this options instruction ctx request :
  _inputContext this = Some ctx ->
  IBuildPromptContext.request ctx = Some request ->
  exists config, loopOptions this options instruction = Js.Returned config.
Proof.
  intros Hctx Hreq. unfold loopOptions. rewrite Hctx. simpl.
  rewrite Hreq. simpl. eauto.
Qed.

Lemma loopOptions_fields this options instruction config :
  loopOptions this options instruction = Js.Returned config ->
  exists ctx request,
    _inputContext this = Some ctx
    /\ IBuildPromptContext.request ctx = Some request
    /\ ISubagentToolCallingLoopOptions.toolCallLimit config = 25
    /\ ISubagentToolCallingLoopOptions.conversation config
       = Conversation.mk "" [Turn.mk "" (TurnMessage.mk "user" instruction)]
    /\ ISubagentToolCallingLoopOptions.request config = request
    /\ ISubagentToolCallingLoopOptions.location config = ChatRequest.location request
    /\ ISubagentToolCallingLoopOptions.promptText config
       = IExecutionSubagentParams.command (LanguageModelToolInvocationOptions.input options)
    /\ ISubagentToolCallingLoopOptions.allowedTools config = list_to_set [CoreRunInTerminal]
    /\ ISubagentToolCallingLoopOptions.customPromptClass config = ExecutionSubagentPrompt.render.
Proof.
  unfold loopOptions. intros H.
  destruct (_inputContext this) as [ctx|] eqn:Hctx; simpl in H; [|discriminate].
  destruct (IBuildPromptContext.request ctx) as [request|] eqn:Hreq;
    simpl in H; [|discriminate].
  injection H as <-. exists ctx, request. simpl. repeat split; assumption.
Qed.

Lemma loopOptions_unbound this options instruction :
  _inputContext this = None ->
  loopOptions this options instruction = Js.Thrown Js.TypeError.
Proof. intros H. unfold loopOptions. rewrite H. reflexivity. Qed.

Lemma invoke_returned this options token ui config :
  loopOptions this options
    (executionInstruction (LanguageModelToolInvocationOptions.input options))
    = Js.Returned config ->
  invoke this options token ui =
    (Js.Returned
       (ExtendedLanguageModelToolResult.mk
          [LanguageModelTextPart.mk (subagentResponse (awaited this config token))]),
     snd (SubagentToolCallingLoop.run
            (IInstantiationService.createInstance (instantiationService this) config)
            (filteredStream this) token ui)).
Proof. intros H. unfold invoke. rewrite H. reflexivity. Qed.

Lemma invoke_thrown this options token ui :
  _inputContext this = None ->
  invoke this options token ui = (Js.Thrown Js.TypeError, ui).
Proof.
  intros H. unfold invoke. rewrite (loopOptions_unbound _ _ _ H). reflexivity.
Qed.

Lemma subagentResponse_on_success loopResult :
  ChatResponse.type (IToolCallLoopResult.response loopResult) = Success ->
  subagentResponse loopResult = Js.nullish_lit (selectedResponse loopResult) "".
Proof.
  intros H. unfold subagentResponse, selectedResponse.
  destruct (decide _) as [_|Hne]; [reflexivity | contradiction].
Qed.

Lemma subagentResponse_on_failure loopResult :
  ChatResponse.type (IToolCallLoopResult.response loopResult) <> Success ->
  subagentResponse loopResult
  = failureMessage (ChatResponse.type (IToolCallLoopResult.response loopResult))
      (Js.subst (ChatResponse.reason (IToolCallLoopResult.response loopResult))).
Proof.
  intros H. unfold subagentResponse, failureMessage.
  destruct (decide _) as [He|_]; [contradiction | reflexivity].
Qed.

Lemma failureMessage_nonempty K R : failureMessage K R <> "".
Proof. unfold failureMessage. simpl. discriminate. Qed.

(** *** The stream filter *)

Lemma keptPart_isKeptKind part : keptPart part = isKeptKind part.
Proof. destruct part as [[| | |className] payload]; reflexivity. Qed.

Lemma pushAll_filter outer callback events ui :
  ChatResponseStream.pushAll (ChatResponseStreamImpl.filter outer callback) events ui
  = ChatResponseStream.pushAll outer (List.filter callback events) ui.
Proof.
  unfold ChatResponseStream.pushAll. revert ui.
  induction events as [|part events IH]; intros ui; simpl; [reflexivity|].
  destruct (callback part); simpl; apply IH.
Qed.

Lemma pushAll_view parts ui :
  ChatResponseStream.pushAll ChatResponseStream.view parts ui = ui ++ parts.
Proof.
  unfold ChatResponseStream.pushAll. revert ui.
  induction parts as [|part parts IH]; intros ui; simpl.
  - symmetry. apply app_nil_r.
  - rewrite IH, <- app_assoc. reflexivity.
Qed.

Lemma filter_sublist {A} (keep : A -> bool) (xs : list A) :
  sublist (List.filter keep xs) xs.
Proof.
  induction xs as [|x xs IH]; simpl; [constructor|].
  destruct (keep x); [apply sublist_skip | apply sublist_cons]; exact IH.
Qed.

Lemma filteredStream_bound this ctx :
  _inputContext this = Some ctx ->
  filteredStream this
  = Js.and_then (IBuildPromptContext.stream ctx)
      (fun stream => ChatResponseStreamImpl.filter stream keptPart).
Proof. intros H. unfold filteredStream. rewrite H. reflexivity. Qed.

(** *** The result interpreter *)

(** C2: when the response type is [Success], the text is the response
    of the last element of [toolCallRounds]; when [toolCallRounds] is
    empty it is the response of [round]; when that is absent as well
    it is the empty string. *)
Theorem success_returns_last_round_response loopResult :
  ChatResponse.type (IToolCallLoopResult.response loopResult) = Success ->
  (forall lastRound text,
      last (IToolCallLoopResult.toolCallRounds loopResult) = Some lastRound ->
      IToolCallRound.response lastRound = Some text ->
      subagentResponse loopResult = text)
  /\ (forall text,
      IToolCallLoopResult.toolCallRounds loopResult = [] ->
      IToolCallRound.response (IToolCallLoopResult.round loopResult) = Some text ->
      subagentResponse loopResult = text)
  /\ (IToolCallLoopResult.toolCallRounds loopResult = [] ->
      IToolCallRound.response (IToolCallLoopResult.round loopResult) = None ->
      subagentResponse loopResult = "").
Proof.
  intros Hok. rewrite (subagentResponse_on_success _ Hok).
  unfold selectedResponse, Js.at_last. repeat split.
  - intros lastRound text Hlast Htext. rewrite Hlast. simpl.
    rewrite Htext. reflexivity.
  - intros text Hnil Htext. rewrite Hnil. simpl. rewrite Htext. reflexivity.
  - intros Hnil Habsent. rewrite Hnil. simpl. rewrite Habsent. reflexivity.
Qed.

(** A last round that carries no response text does not stop the
    chain of line 78: the response of [round] is tried next. *)
Lemma success_skips_absent_response loopResult lastRound :
  ChatResponse.type (IToolCallLoopResult.response loopResult) = Success ->
  last (IToolCallLoopResult.toolCallRounds loopResult) = Some lastRound ->
  IToolCallRound.response lastRound = None ->
  subagentResponse loopResult
  = Js.nullish_lit (IToolCallRound.response (IToolCallLoopResult.round loopResult)) "".
Proof.
  intros Hok Hlast Habsent. rewrite (subagentResponse_on_success _ Hok).
  unfold selectedResponse, Js.at_last. rewrite Hlast. simpl.
  rewrite Habsent. reflexivity.
Qed.

(** C3: when the response type is a failure type [K] with reason [R],
    the text is exactly the fixed sentence, a line break, then
    [K: R]; and [invoke] resolves with that text as its result
    instead of throwing. *)
Theorem failure_returns_message loopResult K R :
  ChatResponse.type (IToolCallLoopResult.response loopResult) = K ->
  K <> Success ->
  ChatResponse.reason (IToolCallLoopResult.response loopResult) = Some R ->
  subagentResponse loopResult
  = "The search subagent request failed with this message:" +:+ Js.nl
      +:+ K +:+ ": " +:+ R
  /\ forall this options token ui config,
      loopOptions this options
        (executionInstruction (LanguageModelToolInvocationOptions.input options))
        = Js.Returned config ->
      awaited this config token = loopResult ->
      fst (invoke this options token ui)
      = Js.Returned
          (ExtendedLanguageModelToolResult.mk
             [LanguageModelTextPart.mk (failureMessage K R)]).
Proof.
  intros HK Hne HR.
  assert (Hmsg : subagentResponse loopResult = failureMessage K R).
  { rewrite subagentResponse_on_failure by (rewrite HK; exact Hne).
    rewrite HK, HR. reflexivity. }
  split; [exact Hmsg|].
  intros this options token ui config Hcfg Hrun.
  rewrite (invoke_returned _ _ _ _ _ Hcfg). simpl.
  rewrite Hrun, Hmsg. reflexivity.
Qed.

(** C1 (amended): once a context that carries a request is bound,
    [invoke] resolves, for every request and every loop result, with
    a tool result of exactly one text part, the text of
    [subagentResponse]. That text is non-empty whenever the response
    type is not [Success]; on [Success] it is the selected response,
    passed through unchanged, or the empty string when none is
    selected, so it is empty exactly when the selected response is
    absent or is itself the empty string. *)
Theorem invoke_returns_one_text this options token ui ctx request :
  _inputContext this = Some ctx ->
  IBuildPromptContext.request ctx = Some request ->
  exists config text,
    loopOptions this options
      (executionInstruction (LanguageModelToolInvocationOptions.input options))
      = Js.Returned config
    /\ fst (invoke this options token ui)
       = Js.Returned
           (ExtendedLanguageModelToolResult.mk [LanguageModelTextPart.mk text])
    /\ text = subagentResponse (awaited this config token)
    /\ (ChatResponse.type (IToolCallLoopResult.response (awaited this config token))
          <> Success -> text <> "")
    /\ (ChatResponse.type (IToolCallLoopResult.response (awaited this config token))
          = Success ->
        text = Js.nullish_lit (selectedResponse (awaited this config token)) ""
        /\ (forall selected,
              selectedResponse (awaited this config token) = Some selected ->
              text = selected)
        /\ (text = "" <->
             selectedResponse (awaited this config token) = None
             \/ selectedResponse (awaited this config token) = Some "")).
Proof.
  intros Hctx Hreq.
  destruct (loopOptions_bound this options
              (executionInstruction (LanguageModelToolInvocationOptions.input options))
              ctx request Hctx Hreq) as [config Hcfg].
  exists config, (subagentResponse (awaited this config token)).
  split; [exact Hcfg|].
  split; [rewrite (invoke_returned _ _ _ _ _ Hcfg); reflexivity|].
  split; [reflexivity|].
  split.
  - intros Hne. rewrite (subagentResponse_on_failure _ Hne).
    apply failureMessage_nonempty.
  - intros Hok. rewrite (subagentResponse_on_success _ Hok).
    split; [reflexivity|].
    destruct (selectedResponse (awaited this config token)) as [text|]; simpl.
    + split; [intros selected Hsel; congruence|]. split.
      * intros ->. right. reflexivity.
      * intros [Hn|Hs]; [discriminate | congruence].
    + split; [intros selected Hsel; discriminate Hsel|].
      split; [intros _; left; reflexivity | reflexivity].
Qed.

(** *** The loop configuration *)

(** C4: whatever the request, the allow-list of the configuration
    [invoke] builds has exactly one element, and its only member is
    [ToolName.CoreRunInTerminal]. *)
Theorem allowedTools_is_run_in_terminal this options instruction config :
  loopOptions this options instruction = Js.Returned config ->
  size (ISubagentToolCallingLoopOptions.allowedTools config) = 1
  /\ forall tool : string,
      tool ∈ ISubagentToolCallingLoopOptions.allowedTools config
      <-> tool = CoreRunInTerminal.
Proof.
  intros H.
  destruct (loopOptions_fields _ _ _ _ H)
    as (ctx & request & _ & _ & _ & _ & _ & _ & _ & Hallowed & _).
  rewrite Hallowed.
  change (list_to_set [CoreRunInTerminal] : gset string)
    with ({[CoreRunInTerminal]} ∪ ∅ : gset string).
  rewrite (right_id_L ∅ (∪)). split.
  - apply size_singleton.
  - intros tool. apply elem_of_singleton.
Qed.

(** C5: whatever the request, the call budget of the configuration
    [invoke] builds is 25. *)
Theorem toolCallLimit_is_25 this options instruction config :
  loopOptions this options instruction = Js.Returned config ->
  ISubagentToolCallingLoopOptions.toolCallLimit config = 25.
Proof.
  intros H.
  destruct (loopOptions_fields _ _ _ _ H)
    as (ctx & request & _ & _ & Hlimit & _).
  exact Hlimit.
Qed.

(** C8: the conversation of the configuration has exactly one turn,
    whose message is the synthesized instruction; and the prompt
    class of the configuration, rendered over that conversation,
    emits that message as the one user message, followed by the
    tool-call history. *)
Theorem conversation_is_the_instruction this options config :
  loopOptions this options
    (executionInstruction (LanguageModelToolInvocationOptions.input options))
    = Js.Returned config ->
  (exists turn,
      Conversation.turns (ISubagentToolCallingLoopOptions.conversation config) = [turn]
      /\ TurnMessage.message (Turn.request turn)
         = executionInstruction (LanguageModelToolInvocationOptions.input options))
  /\ forall promptContext,
      IBuildPromptContext.conversation promptContext
        = Some (ISubagentToolCallingLoopOptions.conversation config) ->
      exists calls,
        ISubagentToolCallingLoopOptions.customPromptClass config
          (GenericBasePromptElementProps.mk promptContext)
        = [ UserMessage
              (Some (executionInstruction
                       (LanguageModelToolInvocationOptions.input options)));
            ChatToolCalls calls ].
Proof.
  intros H.
  destruct (loopOptions_fields _ _ _ _ H)
    as (ctx & request & _ & _ & _ & Hconv & _ & _ & _ & _ & Hclass).
  rewrite Hconv, Hclass. split.
  - eexists. split; reflexivity.
  - intros promptContext Hpc. unfold ExecutionSubagentPrompt.render. simpl.
    rewrite Hpc. simpl. eexists. reflexivity.
Qed.

(** *** The instruction *)

(** C7: the instruction depends on the request through the command
    and the objective only: two requests that agree on both get the
    same instruction; and the instruction is the text [Command: ],
    the command as it is, a line break, [Objective: ], the objective
    as it is, a line break, and then the fixed contract. *)
Theorem executionInstruction_of_command_and_objective a b :
  IExecutionSubagentParams.command a = IExecutionSubagentParams.command b ->
  IExecutionSubagentParams.objective a = IExecutionSubagentParams.objective b ->
  executionInstruction a = executionInstruction b
  /\ executionInstruction a
     = "Command: " +:+ IExecutionSubagentParams.command a +:+ Js.nl
         +:+ "Objective: " +:+ IExecutionSubagentParams.objective a +:+ Js.nl
         +:+ Js.join Js.nl instructionContract.
Proof.
  intros Hc Ho. split.
  - unfold executionInstruction. rewrite Hc, Ho. reflexivity.
  - reflexivity.
Qed.

(** *** Streaming *)

(** C6: with an outer stream bound, the stream handed to the loop
    forwards, of any sequence of parts pushed on it, exactly the
    parts of a kept kind, in the order they were pushed: the outer
    stream sees the pushes of that subsequence and no other. *)
Theorem filteredStream_forwards_kept_parts this ctx outer events ui :
  _inputContext this = Some ctx ->
  IBuildPromptContext.stream ctx = Some outer ->
  exists sink,
    filteredStream this = Some sink
    /\ ChatResponseStream.pushAll sink events ui
       = ChatResponseStream.pushAll outer (List.filter isKeptKind events) ui
    /\ ChatResponseStream.pushAll
         (ChatResponseStreamImpl.filter ChatResponseStream.view keptPart) events ui
       = ui ++ List.filter isKeptKind events
    /\ sublist (List.filter isKeptKind events) events.
Proof.
  intros Hctx Hstream.
  exists (ChatResponseStreamImpl.filter outer keptPart).
  rewrite (filteredStream_bound _ _ Hctx), Hstream. simpl.
  rewrite !pushAll_filter, pushAll_view.
  rewrite (List.filter_ext _ _ keptPart_isKeptKind).
  repeat split. apply filter_sublist.
Qed.

(** C9: with a context bound that has no outer stream, no filter is
    built: the loop is handed [undefined], the outer view receives
    nothing, and [invoke] still resolves with a result. *)
Theorem absent_stream_is_silent this options token ui ctx request :
  _inputContext this = Some ctx ->
  IBuildPromptContext.request ctx = Some request ->
  IBuildPromptContext.stream ctx = None ->
  filteredStream this = None
  /\ snd (invoke this options token ui) = ui
  /\ exists result, fst (invoke this options token ui) = Js.Returned result.
Proof.
  intros Hctx Hreq Hstream.
  assert (Hnone : filteredStream this = None).
  { rewrite (filteredStream_bound _ _ Hctx), Hstream. reflexivity. }
  destruct (loopOptions_bound this options
              (executionInstruction (LanguageModelToolInvocationOptions.input options))
              ctx request Hctx Hreq) as [config Hcfg].
  rewrite (invoke_returned _ _ _ _ _ Hcfg), Hnone. simpl. eauto.
Qed.

(** *** Binding the context *)

(** C10: [resolveInput] returns its input as it is, and leaves the
    tool with the supplied prompt context in [_inputContext] and
    everything else as it was. *)
Theorem resolveInput_returns_input this input promptContext mode :
  fst (resolveInput this input promptContext mode) = input
  /\ _inputContext (snd (resolveInput this input promptContext mode))
     = Some promptContext
  /\ instantiationService (snd (resolveInput this input promptContext mode))
     = instantiationService this.
Proof. repeat split. Qed.

(** ** Further properties of the tool and its prompt *)

(** *** Facts about text *)

Lemma string_length_append s t :
  String.length (s +:+ t) = String.length s + String.length t.
Proof. induction s as [|c s IH]; simpl; [reflexivity | f_equal; exact IH]. Qed.

Lemma string_append_assoc s t u : (s +:+ t) +:+ u = s +:+ (t +:+ u).
Proof.
  induction s as [|c s IH]; [reflexivity|].
  change (String c ((s +:+ t) +:+ u) = String c (s +:+ (t +:+ u))).
  rewrite IH. reflexivity.
Qed.

Lemma string_append_inv_head p x y : p +:+ x = p +:+ y -> x = y.
Proof.
  induction p as [|c p IH]; simpl; intros H; [exact H|].
  injection H as H. apply IH. exact H.
Qed.

Lemma string_append_inv_tail s1 s2 t : s1 +:+ t = s2 +:+ t -> s1 = s2.
Proof.
  revert s2. induction s1 as [|a s1 IH]; intros [|b s2] H; simpl in H.
  - reflexivity.
  - apply (f_equal String.length) in H.
    rewrite !string_length_append in H. simpl in H. lia.
  - apply (f_equal String.length) in H.
    rewrite !string_length_append in H. simpl in H. lia.
  - injection H as -> H. f_equal. apply IH. exact H.
Qed.

(** Two texts without a line break that are each followed by a line
    break split a common text at the same place. *)
Lemma string_first_break_unique c1 c2 r1 r2 :
  hasLineBreak c1 = false ->
  hasLineBreak c2 = false ->
  c1 +:+ Js.nl +:+ r1 = c2 +:+ Js.nl +:+ r2 ->
  c1 = c2 /\ r1 = r2.
Proof.
  revert c2. induction c1 as [|a c1 IH]; intros [|b c2] H1 H2 H; simpl in *.
  - injection H as H. split; [reflexivity | exact H].
  - injection H as Hb _. subst b. discriminate H2.
  - injection H as Ha _. subst a. discriminate H1.
  - injection H as -> H.
    destruct (Ascii.eqb b "010"%char); [discriminate|].
    destruct (IH c2 H1 H2 H) as [-> ->]. split; reflexivity.
Qed.

Lemma executionInstruction_text input :
  executionInstruction input
  = "Command: " +:+ IExecutionSubagentParams.command input +:+ Js.nl
      +:+ "Objective: " +:+ IExecutionSubagentParams.objective input +:+ Js.nl
      +:+ Js.join Js.nl instructionContract.
Proof. reflexivity. Qed.

Lemma instructionContract_length :
  String.length (Js.join Js.nl instructionContract) = 794.
Proof. reflexivity. Qed.

Lemma filter_filter {A} (keep : A -> bool) (xs : list A) :
  List.filter keep (List.filter keep xs) = List.filter keep xs.
Proof.
  induction xs as [|x xs IH]; simpl; [reflexivity|].
  destruct (keep x) eqn:Hx; simpl; [rewrite Hx, IH; reflexivity | exact IH].
Qed.

(** *** The instruction *)

(** X1: when neither command contains a line break, the instruction
    determines the command and the objective: two requests with the
    same instruction have the same command and the same objective. *)
Theorem executionInstruction_injective a b :
  hasLineBreak (IExecutionSubagentParams.command a) = false ->
  hasLineBreak (IExecutionSubagentParams.command b) = false ->
  executionInstruction a = executionInstruction b ->
  IExecutionSubagentParams.command a = IExecutionSubagentParams.command b
  /\ IExecutionSubagentParams.objective a = IExecutionSubagentParams.objective b.
Proof.
  intros Ha Hb H. rewrite !executionInstruction_text in H.
  apply (string_append_inv_head "Command: ") in H.
  destruct (string_first_break_unique _ _ _ _ Ha Hb H) as [Hc Hrest].
  split; [exact Hc|].
  apply (string_append_inv_head "Objective: ") in Hrest.
  apply (string_append_inv_tail _ _ _ Hrest).
Qed.

(** X2: a line break in the command is not escaped: a command that
    ends in a line break, [Objective: ] and a text [o1] reads, in the
    instruction, like the shorter command with an objective that starts
    with [o1]. The two requests get the same instruction. *)
Theorem executionInstruction_conflates c o1 o2 d1 d2 :
  executionInstruction
    (IExecutionSubagentParams.mk (c +:+ Js.nl +:+ "Objective: " +:+ o1) o2 d1)
  = executionInstruction
      (IExecutionSubagentParams.mk c (o1 +:+ Js.nl +:+ "Objective: " +:+ o2) d2).
Proof.
  rewrite !executionInstruction_text. simpl IExecutionSubagentParams.command.
  simpl IExecutionSubagentParams.objective.
  apply (f_equal (String.append "Command: ")).
  rewrite !string_append_assoc. reflexivity.
Qed.

(** X3: the instruction is 816 characters longer than the command and
    the objective together. *)
Theorem executionInstruction_grows_by_816 input :
  String.length (executionInstruction input)
  = String.length (IExecutionSubagentParams.command input)
    + String.length (IExecutionSubagentParams.objective input) + 816.
Proof.
  rewrite executionInstruction_text, !string_length_append.
  rewrite instructionContract_length. simpl. lia.
Qed.

(** *** Invocation *)

(** X4: [invoke] rejects with a [TypeError] exactly when no context is
    bound or the bound context carries no request; it then leaves the
    outer view as it found it. *)
Theorem invoke_throws_iff_no_request this options token ui :
  (fst (invoke this options token ui) = Js.Thrown Js.TypeError
   <-> (_inputContext this = None
        \/ exists ctx, _inputContext this = Some ctx
                       /\ IBuildPromptContext.request ctx = None))
  /\ (fst (invoke this options token ui) = Js.Thrown Js.TypeError ->
      snd (invoke this options token ui) = ui).
Proof.
  unfold invoke, loopOptions, SubagentToolCallingLoop.run.
  destruct (_inputContext this) as [ctx|] eqn:Hctx; simpl.
  - destruct (IBuildPromptContext.request ctx) as [request|] eqn:Hreq; simpl.
    + split; [split|].
      * intros H. discriminate H.
      * intros [H | (ctx' & H & Hreq')]; [discriminate H|].
        injection H as <-. rewrite Hreq in Hreq'. discriminate Hreq'.
      * intros H. discriminate H.
    + split; [split|]; try reflexivity.
      intros _. right. exists ctx. split; [reflexivity | exact Hreq].
  - split; [split|]; try reflexivity. intros _. left. reflexivity.
Qed.

(** X5: [invoke] reads the context of the latest [resolveInput]: after
    two bindings it behaves as after the second alone, whatever inputs
    and modes the bindings were made with; and when that context
    carries a request it resolves with a result, whatever state the
    tool was in before. *)
Theorem invoke_uses_latest_context this input1 ctx1 mode1 input2 ctx2 mode2
    options token ui :
  invoke (snd (resolveInput (snd (resolveInput this input1 ctx1 mode1))
                 input2 ctx2 mode2)) options token ui
  = invoke {| instantiationService := instantiationService this;
              _inputContext := Some ctx2 |} options token ui
  /\ forall request,
      IBuildPromptContext.request ctx2 = Some request ->
      exists result,
        fst (invoke (snd (resolveInput (snd (resolveInput this input1 ctx1 mode1))
                            input2 ctx2 mode2)) options token ui)
        = Js.Returned result.
Proof.
  split; [reflexivity|].
  intros request Hreq. simpl.
  destruct (loopOptions_bound
              {| instantiationService := instantiationService this;
                 _inputContext := Some ctx2 |}
              options
              (executionInstruction (LanguageModelToolInvocationOptions.input options))
              ctx2 request eq_refl Hreq) as [config Hcfg].
  rewrite (invoke_returned _ _ _ _ _ Hcfg). simpl. eauto.
Qed.

(** X6: the description of the request reaches neither the loop nor the
    result: two requests with the same command and objective make
    [invoke] return the same result and leave the same view. *)
Theorem invoke_ignores_description this a b token ui :
  IExecutionSubagentParams.command a = IExecutionSubagentParams.command b ->
  IExecutionSubagentParams.objective a = IExecutionSubagentParams.objective b ->
  invoke this (LanguageModelToolInvocationOptions.mk a) token ui
  = invoke this (LanguageModelToolInvocationOptions.mk b) token ui.
Proof.
  intros Hc Ho.
  assert (Hi : executionInstruction a = executionInstruction b).
  { unfold executionInstruction. rewrite Hc, Ho. reflexivity. }
  unfold invoke, loopOptions. simpl. rewrite Hi, Hc. reflexivity.
Qed.

(** X7: the configuration handed to the loop carries the request of the
    bound context, the location of that same request, and the command,
    as it is, as prompt text. *)
Theorem config_carries_request_and_command this options instruction config :
  loopOptions this options instruction = Js.Returned config ->
  (exists ctx,
      _inputContext this = Some ctx
      /\ IBuildPromptContext.request ctx
         = Some (ISubagentToolCallingLoopOptions.request config))
  /\ ISubagentToolCallingLoopOptions.location config
     = ChatRequest.location (ISubagentToolCallingLoopOptions.request config)
  /\ ISubagentToolCallingLoopOptions.promptText config
     = IExecutionSubagentParams.command (LanguageModelToolInvocationOptions.input options).
Proof.
  intros H.
  destruct (loopOptions_fields _ _ _ _ H)
    as (ctx & request & Hctx & Hreq & _ & _ & Hr & Hloc & Hprompt & _).
  rewrite Hr, Hloc, Hprompt. split; [|split; reflexivity].
  exists ctx. split; assumption.
Qed.

(** X8: with an outer stream bound, the outer stream receives from
    [invoke] the pushes of the kept parts the loop reports, in their
    order, and nothing else; when the outer stream is the view, the
    view keeps what it showed and gains only parts of a kept kind. *)
Theorem invoke_forwards_kept_parts this options token ui ctx outer config :
  _inputContext this = Some ctx ->
  IBuildPromptContext.stream ctx = Some outer ->
  loopOptions this options
    (executionInstruction (LanguageModelToolInvocationOptions.input options))
    = Js.Returned config ->
  let reported :=
    SubagentToolCallingLoop.progress
      (IInstantiationService.createInstance (instantiationService this) config) token in
  snd (invoke this options token ui)
  = ChatResponseStream.pushAll outer (List.filter isKeptKind reported) ui
  /\ (outer = ChatResponseStream.view ->
      snd (invoke this options token ui) = ui ++ List.filter isKeptKind reported
      /\ Forall (fun part => isKeptKind part = true) (List.filter isKeptKind reported)
      /\ length (snd (invoke this options token ui)) <= length ui + length reported).
Proof.
  intros Hctx Hstream Hcfg reported.
  assert (Hui : snd (invoke this options token ui)
                = ChatResponseStream.pushAll outer (List.filter isKeptKind reported) ui).
  { rewrite (invoke_returned _ _ _ _ _ Hcfg).
    rewrite (filteredStream_bound _ _ Hctx), Hstream. simpl.
    rewrite pushAll_filter, (List.filter_ext _ _ keptPart_isKeptKind). reflexivity. }
  split; [exact Hui|].
  intros ->. rewrite Hui, pushAll_view. split; [reflexivity|]. split.
  - apply List.Forall_forall. intros part Hin.
    apply List.filter_In in Hin. tauto.
  - rewrite length_app. pose proof (List.filter_length_le isKeptKind reported). lia.
Qed.

(** X9: a stream that already is the filtered projection of an outer
    stream is not narrowed further: the filter of [invoke] built on it
    forwards the very pushes the projection would forward. *)
Theorem filteredStream_on_filtered_stream this ctx outer events ui :
  _inputContext this = Some ctx ->
  IBuildPromptContext.stream ctx
    = Some (ChatResponseStreamImpl.filter outer keptPart) ->
  exists sink,
    filteredStream this = Some sink
    /\ ChatResponseStream.pushAll sink events ui
       = ChatResponseStream.pushAll
           (ChatResponseStreamImpl.filter outer keptPart) events ui.
Proof.
  intros Hctx Hstream. eexists. split.
  - rewrite (filteredStream_bound _ _ Hctx), Hstream. reflexivity.
  - rewrite !pushAll_filter, filter_filter. reflexivity.
Qed.

(** *** The result text *)

(** X10: the text alone does not tell a failed run from a successful
    one: for every failure type and reason there is a successful loop
    result, with a single round, whose text is that failure message. *)
Theorem success_can_carry_failure_message K R :
  exists loopResult lastRound,
    ChatResponse.type (IToolCallLoopResult.response loopResult) = Success
    /\ IToolCallLoopResult.toolCallRounds loopResult = [lastRound]
    /\ subagentResponse loopResult = failureMessage K R.
Proof.
  exists {| IToolCallLoopResult.response := ChatResponse.mk Success None;
            IToolCallLoopResult.toolCallRounds :=
              [IToolCallRound.mk (Some (failureMessage K R))];
            IToolCallLoopResult.round := IToolCallRound.mk None |}.
  eexists. split; [reflexivity|]. split; [reflexivity|].
  rewrite subagentResponse_on_success by reflexivity. reflexivity.
Qed.

(** *** The other entry points *)

(** X11: the invocation message is the description, whatever the
    command, the objective and the token: two requests with the same
    description are announced alike. *)
Theorem prepareInvocation_depends_on_description options1 options2 token1 token2 :
  IExecutionSubagentParams.description (LanguageModelToolInvocationOptions.input options1)
  = IExecutionSubagentParams.description (LanguageModelToolInvocationOptions.input options2) ->
  prepareInvocation options1 token1 = prepareInvocation options2 token2
  /\ PreparedToolInvocation.invocationMessage (prepareInvocation options1 token1)
     = IExecutionSubagentParams.description
         (LanguageModelToolInvocationOptions.input options1).
Proof.
  intros H. unfold prepareInvocation. rewrite H. split; reflexivity.
Qed.

(** X12: [render] always yields a user message followed by the
    tool-call history of the prompt context. The user message is empty
    when the context has no conversation or the conversation has no
    turn; otherwise it is the message of the first turn, and later
    turns are not rendered. *)
Theorem render_shows_first_turn_only props :
  let ctx := GenericBasePromptElementProps.promptContext props in
  exists shown calls,
    ExecutionSubagentPrompt.render props = [UserMessage shown; ChatToolCalls calls]
    /\ ChatToolCallsProps.promptContext calls = ctx
    /\ ChatToolCallsProps.toolCallRounds calls = IBuildPromptContext.toolCallRounds ctx
    /\ ChatToolCallsProps.toolCallResults calls = IBuildPromptContext.toolCallResults ctx
    /\ (IBuildPromptContext.conversation ctx = None -> shown = None)
    /\ (forall conversation,
          IBuildPromptContext.conversation ctx = Some conversation ->
          Conversation.turns conversation = [] -> shown = None)
    /\ (forall conversation first later,
          IBuildPromptContext.conversation ctx = Some conversation ->
          Conversation.turns conversation = first :: later ->
          shown = Some (TurnMessage.message (Turn.request first))).
Proof.
  intros ctx. unfold ExecutionSubagentPrompt.render. fold ctx.
  eexists. eexists. split; [reflexivity|]. simpl.
  repeat split.
  - intros ->. reflexivity.
  - intros conversation -> Hturns. simpl. unfold Js.index. rewrite Hturns. reflexivity.
  - intros conversation first later -> Hturns. simpl. unfold Js.index.
    rewrite Hturns. reflexivity.
Qed.

End Invoke.

(** C1, as the specification words it, fails: a successful run whose
    last round answered with the empty string makes [invoke] resolve
    with an empty text. *)
Lemma invoke_result_can_be_empty :
  delegationResult
    (fst (invoke "success" "run_in_terminal"
            (Sample.tool Sample.answeredNothing Sample.streaming)
            Sample.options Sample.token []))
  = Some "".
Proof. reflexivity. Qed.

(** *** The statements at the sample values *)

Lemma success_returns_last_round_response_witness :
  ChatResponse.type (IToolCallLoopResult.response Sample.succeeded) = "success"
  /\ subagentResponse "success" Sample.succeeded = Sample.answer.
Proof.
  split; [reflexivity|].
  exact (proj1 (success_returns_last_round_response "success" Sample.succeeded eq_refl)
           (IToolCallRound.mk (Some Sample.answer)) Sample.answer eq_refl eq_refl).
Defined.

Lemma failure_returns_message_witness :
  "rateLimited" <> "success"
  /\ subagentResponse "success" Sample.rateLimited
     = "The search subagent request failed with this message:" +:+ Js.nl
         +:+ "rateLimited: rate limited".
Proof.
  assert (Hne : "rateLimited" <> "success") by discriminate.
  split; [exact Hne|].
  exact (proj1 (failure_returns_message "success" "run_in_terminal" Sample.rateLimited
                  "rateLimited" "rate limited" eq_refl Hne eq_refl)).
Defined.

Lemma invoke_returns_one_text_witness :
  exists text,
    fst (invoke "success" "run_in_terminal"
           (Sample.tool Sample.succeeded Sample.streaming)
           Sample.options Sample.token [])
    = Js.Returned (ExtendedLanguageModelToolResult.mk [LanguageModelTextPart.mk text]).
Proof.
  destruct (invoke_returns_one_text "success" "run_in_terminal"
              (Sample.tool Sample.succeeded Sample.streaming)
              Sample.options Sample.token [] Sample.streaming (ChatRequest.mk 1)
              eq_refl eq_refl) as (config & text & _ & Hresult & _).
  exists text. exact Hresult.
Defined.

Lemma allowedTools_is_run_in_terminal_witness :
  exists config,
    loopOptions "run_in_terminal" (Sample.tool Sample.succeeded Sample.streaming)
      Sample.options (executionInstruction Sample.input) = Js.Returned config
    /\ size (ISubagentToolCallingLoopOptions.allowedTools config) = 1.
Proof.
  eexists. split; [reflexivity|].
  eapply (proj1 (allowedTools_is_run_in_terminal "run_in_terminal"
                   (Sample.tool Sample.succeeded Sample.streaming)
                   Sample.options (executionInstruction Sample.input) _ eq_refl)).
Defined.

Lemma toolCallLimit_is_25_witness :
  exists config,
    loopOptions "run_in_terminal" (Sample.tool Sample.rateLimited Sample.silent)
      Sample.options (executionInstruction Sample.input) = Js.Returned config
    /\ ISubagentToolCallingLoopOptions.toolCallLimit config = 25.
Proof.
  eexists. split; [reflexivity|].
  eapply (toolCallLimit_is_25 "run_in_terminal"
            (Sample.tool Sample.rateLimited Sample.silent)
            Sample.options (executionInstruction Sample.input) _ eq_refl).
Defined.

Lemma conversation_is_the_instruction_witness :
  exists config turn,
    loopOptions "run_in_terminal" (Sample.tool Sample.succeeded Sample.streaming)
      Sample.options (executionInstruction Sample.input) = Js.Returned config
    /\ Conversation.turns (ISubagentToolCallingLoopOptions.conversation config) = [turn]
    /\ TurnMessage.message (Turn.request turn) = executionInstruction Sample.input.
Proof.
  eexists.
  destruct (proj1 (conversation_is_the_instruction "run_in_terminal"
                     (Sample.tool Sample.succeeded Sample.streaming)
                     Sample.options _ eq_refl)) as (turn & Hturns & Hmessage).
  exists turn. split; [reflexivity|]. split; [exact Hturns | exact Hmessage].
Defined.

Lemma executionInstruction_of_command_and_objective_witness :
  IExecutionSubagentParams.description Sample.input
    <> IExecutionSubagentParams.description Sample.relabelled
  /\ executionInstruction Sample.input = executionInstruction Sample.relabelled.
Proof.
  split; [discriminate|].
  exact (proj1 (executionInstruction_of_command_and_objective
                  Sample.input Sample.relabelled eq_refl eq_refl)).
Defined.

Lemma filteredStream_forwards_kept_parts_witness :
  exists sink,
    filteredStream (Sample.tool Sample.succeeded Sample.streaming) = Some sink
    /\ ChatResponseStream.pushAll sink Sample.reported [Sample.markdown]
       = [Sample.markdown; Sample.prepare; Sample.textEdit; Sample.notebookEdit;
          Sample.prepare].
Proof.
  destruct (filteredStream_forwards_kept_parts
              (Sample.tool Sample.succeeded Sample.streaming) Sample.streaming
              ChatResponseStream.view Sample.reported [Sample.markdown]
              eq_refl eq_refl) as (sink & Hsink & Hpush & _).
  exists sink. split; [exact Hsink|]. rewrite Hpush. reflexivity.
Defined.

Lemma absent_stream_is_silent_witness :
  filteredStream (Sample.tool Sample.succeeded Sample.silent) = None
  /\ snd (invoke "success" "run_in_terminal"
            (Sample.tool Sample.succeeded Sample.silent)
            Sample.options Sample.token [Sample.markdown])
     = [Sample.markdown].
Proof.
  destruct (absent_stream_is_silent "success" "run_in_terminal"
              (Sample.tool Sample.succeeded Sample.silent)
              Sample.options Sample.token [Sample.markdown]
              Sample.silent (ChatRequest.mk 1) eq_refl eq_refl eq_refl)
    as (Hnone & Hui & _).
  split; [exact Hnone | exact Hui].
Defined.

(** *** The scenarios of the specification, evaluated *)

Example prepareInvocation_message :
  PreparedToolInvocation.invocationMessage (prepareInvocation Sample.options Sample.token)
  = "Listing files".
Proof. reflexivity. Qed.

Example invoke_success_scenario :
  invoke "success" "run_in_terminal"
    (Sample.tool Sample.succeeded Sample.streaming) Sample.options Sample.token []
  = (Js.Returned
       (ExtendedLanguageModelToolResult.mk [LanguageModelTextPart.mk Sample.answer]),
     [Sample.prepare; Sample.textEdit; Sample.notebookEdit; Sample.prepare]).
Proof. reflexivity. Qed.

Example invoke_failure_scenario :
  delegationResult
    (fst (invoke "success" "run_in_terminal"
            (Sample.tool Sample.rateLimited Sample.silent)
            Sample.options Sample.token []))
  = Some ("The search subagent request failed with this message:" +:+ Js.nl
            +:+ "rateLimited: rate limited").
Proof. reflexivity. Qed.

Example invoke_before_resolveInput :
  fst (invoke "success" "run_in_terminal"
         {| instantiationService := Sample.service Sample.succeeded;
            _inputContext := None |}
         Sample.options Sample.token [])
  = Js.Thrown Js.TypeError.
Proof. reflexivity. Qed.

Example invoke_after_resolveInput :
  delegationResult
    (fst (invoke "success" "run_in_terminal"
            (snd (resolveInput
                    {| instantiationService := Sample.service Sample.succeeded;
                       _inputContext := None |}
                    Sample.input Sample.silent FullContext))
            Sample.options Sample.token []))
  = Some Sample.answer.
Proof. reflexivity. Qed.

Example executionInstruction_length :
  String.length (executionInstruction Sample.input) = 853.
Proof. reflexivity. Qed.

(** *** The further properties at the sample values *)

Lemma executionInstruction_injective_witness :
  hasLineBreak (IExecutionSubagentParams.command Sample.input) = false
  /\ executionInstruction Sample.input = executionInstruction Sample.relabelled
  /\ IExecutionSubagentParams.objective Sample.input
     = IExecutionSubagentParams.objective Sample.relabelled.
Proof.
  split; [reflexivity|]. split; [reflexivity|].
  exact (proj2 (executionInstruction_injective Sample.input Sample.relabelled
                  eq_refl eq_refl eq_refl)).
Defined.

Lemma invoke_throws_iff_no_request_witness :
  IBuildPromptContext.request Sample.requestless = None
  /\ fst (invoke "success" "run_in_terminal"
            (Sample.tool Sample.succeeded Sample.requestless)
            Sample.options Sample.token [Sample.markdown])
     = Js.Thrown Js.TypeError
  /\ snd (invoke "success" "run_in_terminal"
            (Sample.tool Sample.succeeded Sample.requestless)
            Sample.options Sample.token [Sample.markdown])
     = [Sample.markdown].
Proof.
  split; [reflexivity|].
  destruct (invoke_throws_iff_no_request "success" "run_in_terminal"
              (Sample.tool Sample.succeeded Sample.requestless)
              Sample.options Sample.token [Sample.markdown]) as [Hiff Hui].
  assert (Hthrown := proj2 Hiff
            (or_intror (ex_intro _ Sample.requestless (conj eq_refl eq_refl)))).
  split; [exact Hthrown | exact (Hui Hthrown)].
Defined.

Lemma invoke_uses_latest_context_witness :
  exists result,
    fst (invoke "success" "run_in_terminal"
           (snd (resolveInput
                   (snd (resolveInput Sample.unbound Sample.otherInput
                           Sample.requestless PartialContext))
                   Sample.input Sample.silent FullContext))
           Sample.options Sample.token [])
    = Js.Returned result.
Proof.
  exact (proj2 (invoke_uses_latest_context "success" "run_in_terminal"
                  Sample.unbound Sample.otherInput Sample.requestless PartialContext
                  Sample.input Sample.silent FullContext
                  Sample.options Sample.token [])
           (ChatRequest.mk 1) eq_refl).
Defined.

Lemma invoke_ignores_description_witness :
  IExecutionSubagentParams.description Sample.input
    <> IExecutionSubagentParams.description Sample.relabelled
  /\ invoke "success" "run_in_terminal"
       (Sample.tool Sample.succeeded Sample.streaming)
       (LanguageModelToolInvocationOptions.mk Sample.input) Sample.token []
     = invoke "success" "run_in_terminal"
         (Sample.tool Sample.succeeded Sample.streaming)
         (LanguageModelToolInvocationOptions.mk Sample.relabelled) Sample.token [].
Proof.
  split; [discriminate|].
  exact (invoke_ignores_description "success" "run_in_terminal"
           (Sample.tool Sample.succeeded Sample.streaming)
           Sample.input Sample.relabelled Sample.token [] eq_refl eq_refl).
Defined.

Lemma config_carries_request_and_command_witness :
  exists config,
    loopOptions "run_in_terminal" (Sample.tool Sample.succeeded Sample.streaming)
      Sample.options (executionInstruction Sample.input) = Js.Returned config
    /\ ISubagentToolCallingLoopOptions.promptText config = "ls -la".
Proof.
  eexists. split; [reflexivity|].
  eapply (proj2 (proj2 (config_carries_request_and_command "run_in_terminal"
                          (Sample.tool Sample.succeeded Sample.streaming)
                          Sample.options (executionInstruction Sample.input) _ eq_refl))).
Defined.

Lemma invoke_forwards_kept_parts_witness :
  snd (invoke "success" "run_in_terminal"
         (Sample.tool Sample.succeeded Sample.streaming)
         Sample.options Sample.token [Sample.markdown])
  = [Sample.markdown; Sample.prepare; Sample.textEdit; Sample.notebookEdit;
     Sample.prepare].
Proof.
  destruct (invoke_forwards_kept_parts "success" "run_in_terminal"
              (Sample.tool Sample.succeeded Sample.streaming)
              Sample.options Sample.token [Sample.markdown] Sample.streaming
              ChatResponseStream.view _ eq_refl eq_refl eq_refl) as [_ Hview].
  destruct (Hview eq_refl) as [Hui _]. exact Hui.
Defined.

Lemma filteredStream_on_filtered_stream_witness :
  exists sink,
    filteredStream (Sample.tool Sample.succeeded Sample.nested) = Some sink
    /\ ChatResponseStream.pushAll sink Sample.reported []
       = [Sample.prepare; Sample.textEdit; Sample.notebookEdit; Sample.prepare].
Proof.
  destruct (filteredStream_on_filtered_stream
              (Sample.tool Sample.succeeded Sample.nested) Sample.nested
              ChatResponseStream.view Sample.reported [] eq_refl eq_refl)
    as (sink & Hsink & Hpush).
  exists sink. split; [exact Hsink|]. rewrite Hpush. reflexivity.
Defined.

Lemma prepareInvocation_depends_on_description_witness :
  IExecutionSubagentParams.command Sample.input
    <> IExecutionSubagentParams.command Sample.sameLabel
  /\ prepareInvocation (LanguageModelToolInvocationOptions.mk Sample.input) Sample.token
     = prepareInvocation (LanguageModelToolInvocationOptions.mk Sample.sameLabel)
         (CancellationToken.mk true).
Proof.
  split; [discriminate|].
  exact (proj1 (prepareInvocation_depends_on_description
                  (LanguageModelToolInvocationOptions.mk Sample.input)
                  (LanguageModelToolInvocationOptions.mk Sample.sameLabel)
                  Sample.token (CancellationToken.mk true) eq_refl)).
Defined.

Lemma render_shows_first_turn_only_witness :
  exists calls,
    ExecutionSubagentPrompt.render (GenericBasePromptElementProps.mk Sample.rendering)
    = [UserMessage (Some "run it"); ChatToolCalls calls].
Proof.
  destruct (render_shows_first_turn_only
              (GenericBasePromptElementProps.mk Sample.rendering))
    as (shown & calls & Hrender & _ & _ & _ & _ & _ & Hfirst).
  exists calls. rewrite Hrender.
  rewrite (Hfirst _ _ _ eq_refl eq_refl). reflexivity.
Defined.

Lemma success_skips_absent_response_witness :
  last (IToolCallLoopResult.toolCallRounds Sample.lastRoundSilent)
    = Some (IToolCallRound.mk None)
  /\ subagentResponse "success" Sample.lastRoundSilent = Sample.answer.
Proof.
  split; [reflexivity|].
  exact (success_skips_absent_response "success" Sample.lastRoundSilent
           (IToolCallRound.mk None) eq_refl eq_refl eq_refl).
Defined.

End ExecutionSubagentTool.
